(** * http-swagger: the configuration builder of [swagger_config.go]

    The package holds one record, [Config], one constructor, [newConfig],
    and nineteen functional options.  An option is a closure of Go type
    [func(c *Config)]: it receives the address of the record under
    construction and assigns one field.  Here the record is threaded
    explicitly: an option maps the record before the call to the record
    after it, inside a small error monad that accounts for the two run-time
    panics the statements of the package can raise in Go (a slice index out
    of range, an assignment into a nil map). *)

From stdpp Require Import base option list strings countable gmap fin_maps.
From Stdlib Require Import ZArith.

Open Scope Z_scope.
Open Scope string_scope.
Open Scope list_scope.

(** ** Run-time panics and the monad that carries them *)

Inductive panic : Type :=
| IndexOutOfRange (index len : nat)
| AssignToNilMap.

Inductive result (A : Type) : Type :=
| Ok (a : A)
| Panic (p : panic).

Arguments Ok {A} a.
Arguments Panic {A} p.

#[global] Instance result_ret : MRet result := @Ok.

#[global] Instance result_bind : MBind result := fun A B f r =>
  match r with
  | Ok a => f a
  | Panic p => Panic p
  end.

#[global] Instance result_fmap : FMap result := fun A B f r =>
  match r with
  | Ok a => Ok (f a)
  | Panic p => Panic p
  end.

Definition is_Ok {A} (r : result A) : bool :=
  match r with
  | Ok _ => true
  | Panic _ => false
  end.

(** ** Go slices and maps

    A slice is modelled by the list of its elements; the nil slice and the
    empty slice are both [[]] (they have the same length and the same
    elements, which is all this package looks at).  A map value is either nil
    or a reference to a table, and only an assignment tells them apart. *)

Definition gomap (K V : Type) `{Countable K} : Type := option (gmap K V).

(** [make([]T, n)]: [n] copies of the zero value of [T]. *)
Definition make_slice {A} (zero : A) (n : nat) : list A := replicate n zero.

(** [vs[i] = x] *)
Definition slice_store {A} (vs : list A) (i : nat) (x : A) : result (list A) :=
  if decide (i < length vs)%nat then Ok (<[i:=x]> vs)
  else Panic (IndexOutOfRange i (length vs)).

(** [make(map[K]V, n)]: an empty table; [n] is a capacity hint only. *)
Definition make_map {K V} `{Countable K} (hint : nat) : gomap K V := Some ∅.

(** [m[k] = v] *)
Definition map_store {K V} `{Countable K} (m : gomap K V) (k : K) (v : V)
  : result (gomap K V) :=
  match m with
  | Some tbl => Ok (Some (<[k:=v]> tbl))
  | None => Panic AssignToNilMap
  end.

(** [len(m)] *)
Definition map_len {K V} `{Countable K} (m : gomap K V) : nat :=
  match m with
  | Some tbl => size tbl
  | None => 0%nat
  end.

(** ** The imported packages *)

Module template.

(** [html/template]'s [type JS string]: a string marked as trusted script.
    The conversion [template.JS(s)] is the constructor [toJS]. *)
Record JS : Type := toJS { text : string }.

#[global] Instance JS_eq_dec : EqDecision JS.
Proof. solve_decision. Defined.

#[global] Instance JS_countable : Countable JS.
Proof. apply (inj_countable' text toJS). by intros []. Defined.

#[global] Instance toJS_inj : Inj (=) (=) toJS.
Proof. by intros s1 s2 [= ->]. Qed.

(** The zero value of the type. *)
Definition zero : JS := toJS "".

End template.

Module swag.

(** Modelled from the spec: the constant [Name] of the imported package
    [github.com/swaggo/swag], the process-wide default name of a documentation
    set.  That package is no part of this repository; the value is the one the
    doc comment of [InstanceName] records: [swag.Name ("swagger")]. *)
Definition Name : string := "swagger".

End swag.

(** ** The data model

    Go keeps the fields of a struct and the functions of a package in
    separate name spaces, and the package uses that: [URL] is a field of
    [Config], a field of [URLsConfig] and an option.  Each struct is therefore
    a module holding its record [t], so that the field [URL] of [Config] is
    [Config.URL] and the option keeps the plain name [URL]. *)

Module URLsConfig.

Record t : Type := mk { URL : string; Name : string }.

End URLsConfig.

Module Config.

(** Go's [int] is kept as an unbounded integer: the package stores the depths
    and never computes with them. *)
Record t : Type := mk {
  URL : string;
  URLs : list URLsConfig.t;
  DocExpansion : string;
  DeepLinking : bool;
  DomID : string;
  PersistAuthorization : bool;
  DisplayOperationID : bool;
  DefaultModelsExpandDepth : Z;
  DefaultModelExpandDepth : Z;
  DefaultModelRendering : string;
  DisplayRequestDuration : bool;
  ShowExtensions : bool;
  ShowCommonExtensions : bool;
  SupportedSubmitMethods : list string;
  TryItOutEnabled : bool;
  InstanceName : string;
  BeforeScript : template.JS;
  AfterScript : template.JS;
  Plugins : list template.JS;
  UIConfig : gomap template.JS template.JS
}.

(** Field assignments [c.F = v], one per field the package assigns. *)

Definition with_URL (v : string) (c : t) : t :=
  {| URL := v; URLs := URLs c; DocExpansion := DocExpansion c;
     DeepLinking := DeepLinking c; DomID := DomID c;
     PersistAuthorization := PersistAuthorization c;
     DisplayOperationID := DisplayOperationID c;
     DefaultModelsExpandDepth := DefaultModelsExpandDepth c;
     DefaultModelExpandDepth := DefaultModelExpandDepth c;
     DefaultModelRendering := DefaultModelRendering c;
     DisplayRequestDuration := DisplayRequestDuration c;
     ShowExtensions := ShowExtensions c;
     ShowCommonExtensions := ShowCommonExtensions c;
     SupportedSubmitMethods := SupportedSubmitMethods c;
     TryItOutEnabled := TryItOutEnabled c; InstanceName := InstanceName c;
     BeforeScript := BeforeScript c; AfterScript := AfterScript c;
     Plugins := Plugins c; UIConfig := UIConfig c |}.

Definition with_URLs (v : list URLsConfig.t) (c : t) : t :=
  {| URL := URL c; URLs := v; DocExpansion := DocExpansion c;
     DeepLinking := DeepLinking c; DomID := DomID c;
     PersistAuthorization := PersistAuthorization c;
     DisplayOperationID := DisplayOperationID c;
     DefaultModelsExpandDepth := DefaultModelsExpandDepth c;
     DefaultModelExpandDepth := DefaultModelExpandDepth c;
     DefaultModelRendering := DefaultModelRendering c;
     DisplayRequestDuration := DisplayRequestDuration c;
     ShowExtensions := ShowExtensions c;
     ShowCommonExtensions := ShowCommonExtensions c;
     SupportedSubmitMethods := SupportedSubmitMethods c;
     TryItOutEnabled := TryItOutEnabled c; InstanceName := InstanceName c;
     BeforeScript := BeforeScript c; AfterScript := AfterScript c;
     Plugins := Plugins c; UIConfig := UIConfig c |}.

Definition with_DocExpansion (v : string) (c : t) : t :=
  {| URL := URL c; URLs := URLs c; DocExpansion := v;
     DeepLinking := DeepLinking c; DomID := DomID c;
     PersistAuthorization := PersistAuthorization c;
     DisplayOperationID := DisplayOperationID c;
     DefaultModelsExpandDepth := DefaultModelsExpandDepth c;
     DefaultModelExpandDepth := DefaultModelExpandDepth c;
     DefaultModelRendering := DefaultModelRendering c;
     DisplayRequestDuration := DisplayRequestDuration c;
     ShowExtensions := ShowExtensions c;
     ShowCommonExtensions := ShowCommonExtensions c;
     SupportedSubmitMethods := SupportedSubmitMethods c;
     TryItOutEnabled := TryItOutEnabled c; InstanceName := InstanceName c;
     BeforeScript := BeforeScript c; AfterScript := AfterScript c;
     Plugins := Plugins c; UIConfig := UIConfig c |}.

Definition with_DeepLinking (v : bool) (c : t) : t :=
  {| URL := URL c; URLs := URLs c; DocExpansion := DocExpansion c;
     DeepLinking := v; DomID := DomID c;
     PersistAuthorization := PersistAuthorization c;
     DisplayOperationID := DisplayOperationID c;
     DefaultModelsExpandDepth := DefaultModelsExpandDepth c;
     DefaultModelExpandDepth := DefaultModelExpandDepth c;
     DefaultModelRendering := DefaultModelRendering c;
     DisplayRequestDuration := DisplayRequestDuration c;
     ShowExtensions := ShowExtensions c;
     ShowCommonExtensions := ShowCommonExtensions c;
     SupportedSubmitMethods := SupportedSubmitMethods c;
     TryItOutEnabled := TryItOutEnabled c; InstanceName := InstanceName c;
     BeforeScript := BeforeScript c; AfterScript := AfterScript c;
     Plugins := Plugins c; UIConfig := UIConfig c |}.

Definition with_DomID (v : string) (c : t) : t :=
  {| URL := URL c; URLs := URLs c; DocExpansion := DocExpansion c;
     DeepLinking := DeepLinking c; DomID := v;
     PersistAuthorization := PersistAuthorization c;
     DisplayOperationID := DisplayOperationID c;
     DefaultModelsExpandDepth := DefaultModelsExpandDepth c;
     DefaultModelExpandDepth := DefaultModelExpandDepth c;
     DefaultModelRendering := DefaultModelRendering c;
     DisplayRequestDuration := DisplayRequestDuration c;
     ShowExtensions := ShowExtensions c;
     ShowCommonExtensions := ShowCommonExtensions c;
     SupportedSubmitMethods := SupportedSubmitMethods c;
     TryItOutEnabled := TryItOutEnabled c; InstanceName := InstanceName c;
     BeforeScript := BeforeScript c; AfterScript := AfterScript c;
     Plugins := Plugins c; UIConfig := UIConfig c |}.

Definition with_PersistAuthorization (v : bool) (c : t) : t :=
  {| URL := URL c; URLs := URLs c; DocExpansion := DocExpansion c;
     DeepLinking := DeepLinking c; DomID := DomID c; PersistAuthorization := v;
     DisplayOperationID := DisplayOperationID c;
     DefaultModelsExpandDepth := DefaultModelsExpandDepth c;
     DefaultModelExpandDepth := DefaultModelExpandDepth c;
     DefaultModelRendering := DefaultModelRendering c;
     DisplayRequestDuration := DisplayRequestDuration c;
     ShowExtensions := ShowExtensions c;
     ShowCommonExtensions := ShowCommonExtensions c;
     SupportedSubmitMethods := SupportedSubmitMethods c;
     TryItOutEnabled := TryItOutEnabled c; InstanceName := InstanceName c;
     BeforeScript := BeforeScript c; AfterScript := AfterScript c;
     Plugins := Plugins c; UIConfig := UIConfig c |}.

Definition with_DisplayOperationID (v : bool) (c : t) : t :=
  {| URL := URL c; URLs := URLs c; DocExpansion := DocExpansion c;
     DeepLinking := DeepLinking c; DomID := DomID c;
     PersistAuthorization := PersistAuthorization c; DisplayOperationID := v;
     DefaultModelsExpandDepth := DefaultModelsExpandDepth c;
     DefaultModelExpandDepth := DefaultModelExpandDepth c;
     DefaultModelRendering := DefaultModelRendering c;
     DisplayRequestDuration := DisplayRequestDuration c;
     ShowExtensions := ShowExtensions c;
     ShowCommonExtensions := ShowCommonExtensions c;
     SupportedSubmitMethods := SupportedSubmitMethods c;
     TryItOutEnabled := TryItOutEnabled c; InstanceName := InstanceName c;
     BeforeScript := BeforeScript c; AfterScript := AfterScript c;
     Plugins := Plugins c; UIConfig := UIConfig c |}.

Definition with_DefaultModelsExpandDepth (v : Z) (c : t) : t :=
  {| URL := URL c; URLs := URLs c; DocExpansion := DocExpansion c;
     DeepLinking := DeepLinking c; DomID := DomID c;
     PersistAuthorization := PersistAuthorization c;
     DisplayOperationID := DisplayOperationID c; DefaultModelsExpandDepth := v;
     DefaultModelExpandDepth := DefaultModelExpandDepth c;
     DefaultModelRendering := DefaultModelRendering c;
     DisplayRequestDuration := DisplayRequestDuration c;
     ShowExtensions := ShowExtensions c;
     ShowCommonExtensions := ShowCommonExtensions c;
     SupportedSubmitMethods := SupportedSubmitMethods c;
     TryItOutEnabled := TryItOutEnabled c; InstanceName := InstanceName c;
     BeforeScript := BeforeScript c; AfterScript := AfterScript c;
     Plugins := Plugins c; UIConfig := UIConfig c |}.

Definition with_DefaultModelExpandDepth (v : Z) (c : t) : t :=
  {| URL := URL c; URLs := URLs c; DocExpansion := DocExpansion c;
     DeepLinking := DeepLinking c; DomID := DomID c;
     PersistAuthorization := PersistAuthorization c;
     DisplayOperationID := DisplayOperationID c;
     DefaultModelsExpandDepth := DefaultModelsExpandDepth c;
     DefaultModelExpandDepth := v;
     DefaultModelRendering := DefaultModelRendering c;
     DisplayRequestDuration := DisplayRequestDuration c;
     ShowExtensions := ShowExtensions c;
     ShowCommonExtensions := ShowCommonExtensions c;
     SupportedSubmitMethods := SupportedSubmitMethods c;
     TryItOutEnabled := TryItOutEnabled c; InstanceName := InstanceName c;
     BeforeScript := BeforeScript c; AfterScript := AfterScript c;
     Plugins := Plugins c; UIConfig := UIConfig c |}.

Definition with_DefaultModelRendering (v : string) (c : t) : t :=
  {| URL := URL c; URLs := URLs c; DocExpansion := DocExpansion c;
     DeepLinking := DeepLinking c; DomID := DomID c;
     PersistAuthorization := PersistAuthorization c;
     DisplayOperationID := DisplayOperationID c;
     DefaultModelsExpandDepth := DefaultModelsExpandDepth c;
     DefaultModelExpandDepth := DefaultModelExpandDepth c;
     DefaultModelRendering := v;
     DisplayRequestDuration := DisplayRequestDuration c;
     ShowExtensions := ShowExtensions c;
     ShowCommonExtensions := ShowCommonExtensions c;
     SupportedSubmitMethods := SupportedSubmitMethods c;
     TryItOutEnabled := TryItOutEnabled c; InstanceName := InstanceName c;
     BeforeScript := BeforeScript c; AfterScript := AfterScript c;
     Plugins := Plugins c; UIConfig := UIConfig c |}.

Definition with_DisplayRequestDuration (v : bool) (c : t) : t :=
  {| URL := URL c; URLs := URLs c; DocExpansion := DocExpansion c;
     DeepLinking := DeepLinking c; DomID := DomID c;
     PersistAuthorization := PersistAuthorization c;
     DisplayOperationID := DisplayOperationID c;
     DefaultModelsExpandDepth := DefaultModelsExpandDepth c;
     DefaultModelExpandDepth := DefaultModelExpandDepth c;
     DefaultModelRendering := DefaultModelRendering c;
     DisplayRequestDuration := v; ShowExtensions := ShowExtensions c;
     ShowCommonExtensions := ShowCommonExtensions c;
     SupportedSubmitMethods := SupportedSubmitMethods c;
     TryItOutEnabled := TryItOutEnabled c; InstanceName := InstanceName c;
     BeforeScript := BeforeScript c; AfterScript := AfterScript c;
     Plugins := Plugins c; UIConfig := UIConfig c |}.

Definition with_ShowExtensions (v : bool) (c : t) : t :=
  {| URL := URL c; URLs := URLs c; DocExpansion := DocExpansion c;
     DeepLinking := DeepLinking c; DomID := DomID c;
     PersistAuthorization := PersistAuthorization c;
     DisplayOperationID := DisplayOperationID c;
     DefaultModelsExpandDepth := DefaultModelsExpandDepth c;
     DefaultModelExpandDepth := DefaultModelExpandDepth c;
     DefaultModelRendering := DefaultModelRendering c;
     DisplayRequestDuration := DisplayRequestDuration c; ShowExtensions := v;
     ShowCommonExtensions := ShowCommonExtensions c;
     SupportedSubmitMethods := SupportedSubmitMethods c;
     TryItOutEnabled := TryItOutEnabled c; InstanceName := InstanceName c;
     BeforeScript := BeforeScript c; AfterScript := AfterScript c;
     Plugins := Plugins c; UIConfig := UIConfig c |}.

Definition with_ShowCommonExtensions (v : bool) (c : t) : t :=
  {| URL := URL c; URLs := URLs c; DocExpansion := DocExpansion c;
     DeepLinking := DeepLinking c; DomID := DomID c;
     PersistAuthorization := PersistAuthorization c;
     DisplayOperationID := DisplayOperationID c;
     DefaultModelsExpandDepth := DefaultModelsExpandDepth c;
     DefaultModelExpandDepth := DefaultModelExpandDepth c;
     DefaultModelRendering := DefaultModelRendering c;
     DisplayRequestDuration := DisplayRequestDuration c;
     ShowExtensions := ShowExtensions c; ShowCommonExtensions := v;
     SupportedSubmitMethods := SupportedSubmitMethods c;
     TryItOutEnabled := TryItOutEnabled c; InstanceName := InstanceName c;
     BeforeScript := BeforeScript c; AfterScript := AfterScript c;
     Plugins := Plugins c; UIConfig := UIConfig c |}.

Definition with_SupportedSubmitMethods (v : list string) (c : t) : t :=
  {| URL := URL c; URLs := URLs c; DocExpansion := DocExpansion c;
     DeepLinking := DeepLinking c; DomID := DomID c;
     PersistAuthorization := PersistAuthorization c;
     DisplayOperationID := DisplayOperationID c;
     DefaultModelsExpandDepth := DefaultModelsExpandDepth c;
     DefaultModelExpandDepth := DefaultModelExpandDepth c;
     DefaultModelRendering := DefaultModelRendering c;
     DisplayRequestDuration := DisplayRequestDuration c;
     ShowExtensions := ShowExtensions c;
     ShowCommonExtensions := ShowCommonExtensions c; SupportedSubmitMethods := v;
     TryItOutEnabled := TryItOutEnabled c; InstanceName := InstanceName c;
     BeforeScript := BeforeScript c; AfterScript := AfterScript c;
     Plugins := Plugins c; UIConfig := UIConfig c |}.

Definition with_InstanceName (v : string) (c : t) : t :=
  {| URL := URL c; URLs := URLs c; DocExpansion := DocExpansion c;
     DeepLinking := DeepLinking c; DomID := DomID c;
     PersistAuthorization := PersistAuthorization c;
     DisplayOperationID := DisplayOperationID c;
     DefaultModelsExpandDepth := DefaultModelsExpandDepth c;
     DefaultModelExpandDepth := DefaultModelExpandDepth c;
     DefaultModelRendering := DefaultModelRendering c;
     DisplayRequestDuration := DisplayRequestDuration c;
     ShowExtensions := ShowExtensions c;
     ShowCommonExtensions := ShowCommonExtensions c;
     SupportedSubmitMethods := SupportedSubmitMethods c;
     TryItOutEnabled := TryItOutEnabled c; InstanceName := v;
     BeforeScript := BeforeScript c; AfterScript := AfterScript c;
     Plugins := Plugins c; UIConfig := UIConfig c |}.

Definition with_BeforeScript (v : template.JS) (c : t) : t :=
  {| URL := URL c; URLs := URLs c; DocExpansion := DocExpansion c;
     DeepLinking := DeepLinking c; DomID := DomID c;
     PersistAuthorization := PersistAuthorization c;
     DisplayOperationID := DisplayOperationID c;
     DefaultModelsExpandDepth := DefaultModelsExpandDepth c;
     DefaultModelExpandDepth := DefaultModelExpandDepth c;
     DefaultModelRendering := DefaultModelRendering c;
     DisplayRequestDuration := DisplayRequestDuration c;
     ShowExtensions := ShowExtensions c;
     ShowCommonExtensions := ShowCommonExtensions c;
     SupportedSubmitMethods := SupportedSubmitMethods c;
     TryItOutEnabled := TryItOutEnabled c; InstanceName := InstanceName c;
     BeforeScript := v; AfterScript := AfterScript c; Plugins := Plugins c;
     UIConfig := UIConfig c |}.

Definition with_AfterScript (v : template.JS) (c : t) : t :=
  {| URL := URL c; URLs := URLs c; DocExpansion := DocExpansion c;
     DeepLinking := DeepLinking c; DomID := DomID c;
     PersistAuthorization := PersistAuthorization c;
     DisplayOperationID := DisplayOperationID c;
     DefaultModelsExpandDepth := DefaultModelsExpandDepth c;
     DefaultModelExpandDepth := DefaultModelExpandDepth c;
     DefaultModelRendering := DefaultModelRendering c;
     DisplayRequestDuration := DisplayRequestDuration c;
     ShowExtensions := ShowExtensions c;
     ShowCommonExtensions := ShowCommonExtensions c;
     SupportedSubmitMethods := SupportedSubmitMethods c;
     TryItOutEnabled := TryItOutEnabled c; InstanceName := InstanceName c;
     BeforeScript := BeforeScript c; AfterScript := v; Plugins := Plugins c;
     UIConfig := UIConfig c |}.

Definition with_Plugins (v : list template.JS) (c : t) : t :=
  {| URL := URL c; URLs := URLs c; DocExpansion := DocExpansion c;
     DeepLinking := DeepLinking c; DomID := DomID c;
     PersistAuthorization := PersistAuthorization c;
     DisplayOperationID := DisplayOperationID c;
     DefaultModelsExpandDepth := DefaultModelsExpandDepth c;
     DefaultModelExpandDepth := DefaultModelExpandDepth c;
     DefaultModelRendering := DefaultModelRendering c;
     DisplayRequestDuration := DisplayRequestDuration c;
     ShowExtensions := ShowExtensions c;
     ShowCommonExtensions := ShowCommonExtensions c;
     SupportedSubmitMethods := SupportedSubmitMethods c;
     TryItOutEnabled := TryItOutEnabled c; InstanceName := InstanceName c;
     BeforeScript := BeforeScript c; AfterScript := AfterScript c; Plugins := v;
     UIConfig := UIConfig c |}.

Definition with_UIConfig (v : gomap template.JS template.JS) (c : t) : t :=
  {| URL := URL c; URLs := URLs c; DocExpansion := DocExpansion c;
     DeepLinking := DeepLinking c; DomID := DomID c;
     PersistAuthorization := PersistAuthorization c;
     DisplayOperationID := DisplayOperationID c;
     DefaultModelsExpandDepth := DefaultModelsExpandDepth c;
     DefaultModelExpandDepth := DefaultModelExpandDepth c;
     DefaultModelRendering := DefaultModelRendering c;
     DisplayRequestDuration := DisplayRequestDuration c;
     ShowExtensions := ShowExtensions c;
     ShowCommonExtensions := ShowCommonExtensions c;
     SupportedSubmitMethods := SupportedSubmitMethods c;
     TryItOutEnabled := TryItOutEnabled c; InstanceName := InstanceName c;
     BeforeScript := BeforeScript c; AfterScript := AfterScript c;
     Plugins := Plugins c; UIConfig := v |}.

End Config.

(** ** The options

    [ConfigFn] is Go's [func(c *Config)]: no result, one effect on the record. *)

Definition ConfigFn : Type := Config.t → result Config.t.

Definition URL (url : string) : ConfigFn :=
  fun c => Ok (Config.with_URL url c).

Definition URLs (url name : string) : ConfigFn :=
  fun c =>
    Ok (Config.with_URLs
          (Config.URLs c ++ [ {| URLsConfig.URL := url; URLsConfig.Name := name |} ]) c).

Definition DeepLinking (deepLinking : bool) : ConfigFn :=
  fun c => Ok (Config.with_DeepLinking deepLinking c).

Definition DocExpansion (docExpansion : string) : ConfigFn :=
  fun c => Ok (Config.with_DocExpansion docExpansion c).

Definition DomID (domID : string) : ConfigFn :=
  fun c => Ok (Config.with_DomID domID c).

Definition InstanceName (name : string) : ConfigFn :=
  fun c => Ok (Config.with_InstanceName name c).

Definition PersistAuthorization (persistAuthorization : bool) : ConfigFn :=
  fun c => Ok (Config.with_PersistAuthorization persistAuthorization c).

Definition DisplayOperationID (displayOperationID : bool) : ConfigFn :=
  fun c => Ok (Config.with_DisplayOperationID displayOperationID c).

Definition DefaultModelsExpandDepth (defaultModelsExpandDepth : Z) : ConfigFn :=
  fun c => Ok (Config.with_DefaultModelsExpandDepth defaultModelsExpandDepth c).

Definition DefaultModelExpandDepth (defaultModelExpandDepth : Z) : ConfigFn :=
  fun c => Ok (Config.with_DefaultModelExpandDepth defaultModelExpandDepth c).

Definition DefaultModelRendering (defaultModelRendering : string) : ConfigFn :=
  fun c => Ok (Config.with_DefaultModelRendering defaultModelRendering c).

Definition DisplayRequestDuration (displayRequestDuration : bool) : ConfigFn :=
  fun c => Ok (Config.with_DisplayRequestDuration displayRequestDuration c).

Definition ShowExtensions (showExtensions : bool) : ConfigFn :=
  fun c => Ok (Config.with_ShowExtensions showExtensions c).

Definition ShowCommonExtensions (showCommonExtensions : bool) : ConfigFn :=
  fun c => Ok (Config.with_ShowCommonExtensions showCommonExtensions c).

(** The variadic parameter is the slice of the arguments. *)
Definition SupportedSubmitMethods (supportedSubmitMethods : list string) : ConfigFn :=
  fun c => Ok (Config.with_SupportedSubmitMethods supportedSubmitMethods c).

(** [for i, v := range plugins { vs[i] = template.JS(v) }], entered at index
    [i] with [plugins] the elements not yet visited. *)
Fixpoint Plugins_loop (i : nat) (plugins : list string) (vs : list template.JS)
  : result (list template.JS) :=
  match plugins with
  | [] => Ok vs
  | v :: rest =>
      vs' ← slice_store vs i (template.toJS v);
      Plugins_loop (S i) rest vs'
  end.

Definition Plugins (plugins : list string) : ConfigFn :=
  fun c =>
    vs ← Plugins_loop 0 plugins (make_slice template.zero (length plugins));
    Ok (Config.with_Plugins vs c).

(** [for k, v := range props { vs[template.JS(k)] = template.JS(v) }] over
    the entries in the order the run-time happens to yield them. *)
Fixpoint UIConfig_loop (entries : list (string * string))
    (vs : gomap template.JS template.JS)
  : result (gomap template.JS template.JS) :=
  match entries with
  | [] => Ok vs
  | (k, v) :: rest =>
      vs' ← map_store vs (template.toJS k) (template.toJS v);
      UIConfig_loop rest vs'
  end.

(** Go leaves the iteration order of [range] over a map unspecified.
    [UIConfig_in_order] runs the option for one such order, given as the list
    of the entries; [UIConfig] takes the order of [map_to_list].
    [UIConfig_any_order] below shows the order has no influence. *)
Definition UIConfig_in_order (entries : list (string * string)) (hint : nat)
  : ConfigFn :=
  fun c =>
    vs ← UIConfig_loop entries (make_map hint);
    Ok (Config.with_UIConfig vs c).

Definition UIConfig (props : gmap string string) : ConfigFn :=
  UIConfig_in_order (map_to_list props) (size props).

Definition BeforeScript (js : string) : ConfigFn :=
  fun c => Ok (Config.with_BeforeScript (template.toJS js) c).

Definition AfterScript (js : string) : ConfigFn :=
  fun c => Ok (Config.with_AfterScript (template.toJS js) c).

(** ** The constructor *)

(** The composite literal of [newConfig]; the fields it leaves out
    ([InstanceName], [BeforeScript], [AfterScript], [Plugins], [UIConfig])
    have the zero value of their type. *)
Definition newConfig_literal : Config.t :=
  {| Config.URL := "doc.json";
     Config.URLs := [];
     Config.DocExpansion := "list";
     Config.DomID := "swagger-ui";
     Config.DeepLinking := true;
     Config.PersistAuthorization := false;
     Config.DisplayOperationID := false;
     Config.DefaultModelsExpandDepth := 1;
     Config.DefaultModelExpandDepth := 1;
     Config.DefaultModelRendering := "example";
     Config.DisplayRequestDuration := false;
     Config.ShowExtensions := false;
     Config.ShowCommonExtensions := false;
     Config.SupportedSubmitMethods :=
       ["get"; "put"; "post"; "delete"; "options"; "head"; "patch"; "trace"];
     Config.TryItOutEnabled := false;
     Config.InstanceName := "";
     Config.BeforeScript := template.zero;
     Config.AfterScript := template.zero;
     Config.Plugins := [];
     Config.UIConfig := None |}.

(** [for _, fn := range configFns { fn(&config) }] *)
Fixpoint newConfig_loop (configFns : list ConfigFn) (config : Config.t)
  : result Config.t :=
  match configFns with
  | [] => Ok config
  | fn :: rest =>
      config' ← fn config;
      newConfig_loop rest config'
  end.

Definition newConfig (configFns : list ConfigFn) : result Config.t :=
  config ← newConfig_loop configFns newConfig_literal;
  if decide (Config.InstanceName config = "")
  then Ok (Config.with_InstanceName swag.Name config)
  else Ok config.

(** ** The option catalogue

    A [call] is one invocation of one of the package's nineteen exported
    options, with its arguments; [option_of] is the closure the invocation
    returns.  Lists of calls stand for the option sequences a caller can build
    from the package alone. *)

Inductive call : Type :=
| call_URL (url : string)
| call_URLs (url name : string)
| call_DeepLinking (deepLinking : bool)
| call_DocExpansion (docExpansion : string)
| call_DomID (domID : string)
| call_InstanceName (name : string)
| call_PersistAuthorization (persistAuthorization : bool)
| call_DisplayOperationID (displayOperationID : bool)
| call_DefaultModelsExpandDepth (defaultModelsExpandDepth : Z)
| call_DefaultModelExpandDepth (defaultModelExpandDepth : Z)
| call_DefaultModelRendering (defaultModelRendering : string)
| call_DisplayRequestDuration (displayRequestDuration : bool)
| call_ShowExtensions (showExtensions : bool)
| call_ShowCommonExtensions (showCommonExtensions : bool)
| call_SupportedSubmitMethods (supportedSubmitMethods : list string)
| call_Plugins (plugins : list string)
| call_UIConfig (props : gmap string string)
| call_BeforeScript (js : string)
| call_AfterScript (js : string).

Definition option_of (o : call) : ConfigFn :=
  match o with
  | call_URL url => URL url
  | call_URLs url name => URLs url name
  | call_DeepLinking b => DeepLinking b
  | call_DocExpansion s => DocExpansion s
  | call_DomID s => DomID s
  | call_InstanceName s => InstanceName s
  | call_PersistAuthorization b => PersistAuthorization b
  | call_DisplayOperationID b => DisplayOperationID b
  | call_DefaultModelsExpandDepth n => DefaultModelsExpandDepth n
  | call_DefaultModelExpandDepth n => DefaultModelExpandDepth n
  | call_DefaultModelRendering s => DefaultModelRendering s
  | call_DisplayRequestDuration b => DisplayRequestDuration b
  | call_ShowExtensions b => ShowExtensions b
  | call_ShowCommonExtensions b => ShowCommonExtensions b
  | call_SupportedSubmitMethods ms => SupportedSubmitMethods ms
  | call_Plugins ps => Plugins ps
  | call_UIConfig props => UIConfig props
  | call_BeforeScript js => BeforeScript js
  | call_AfterScript js => AfterScript js
  end.

(** Position of an option in the catalogue; two calls invoke the same option
    when they agree on it. *)
Definition option_index (o : call) : nat :=
  match o with
  | call_URL _ => 0
  | call_URLs _ _ => 1
  | call_DeepLinking _ => 2
  | call_DocExpansion _ => 3
  | call_DomID _ => 4
  | call_InstanceName _ => 5
  | call_PersistAuthorization _ => 6
  | call_DisplayOperationID _ => 7
  | call_DefaultModelsExpandDepth _ => 8
  | call_DefaultModelExpandDepth _ => 9
  | call_DefaultModelRendering _ => 10
  | call_DisplayRequestDuration _ => 11
  | call_ShowExtensions _ => 12
  | call_ShowCommonExtensions _ => 13
  | call_SupportedSubmitMethods _ => 14
  | call_Plugins _ => 15
  | call_UIConfig _ => 16
  | call_BeforeScript _ => 17
  | call_AfterScript _ => 18
  end%nat.

Definition same_option (o1 o2 : call) : bool :=
  Nat.eqb (option_index o1) (option_index o2).

(** [not_invoked_in o os]: no call of [os] invokes the option of [o]. *)
Definition not_invoked_in (o : call) (os : list call) : bool :=
  forallb (fun o' => negb (same_option o o')) os.

(** The options that overwrite a field holding one value (a string, a
    boolean, an integer, a script). *)
Definition scalar (o : call) : bool :=
  match o with
  | call_URLs _ _ | call_SupportedSubmitMethods _
  | call_Plugins _ | call_UIConfig _ => false
  | _ => true
  end.

(** The options that assign a whole list or map. *)
Definition replacing (o : call) : bool :=
  match o with
  | call_SupportedSubmitMethods _ | call_Plugins _ | call_UIConfig _ => true
  | _ => false
  end.

(** The table [UIConfig] builds from [props]: keys and values converted. *)
Definition JS_table (props : gmap string string) : gmap template.JS template.JS :=
  kmap template.toJS (template.toJS <$> props).

(** [in_effect o c]: the record [c] holds, in the field the option of [o]
    assigns, the value [o] passed (converted to [template.JS] where the option
    converts); for [URLs], the entry [o] passed is the last of the list. *)
Definition in_effect (o : call) (c : Config.t) : Prop :=
  match o with
  | call_URL url => Config.URL c = url
  | call_URLs url name =>
      last (Config.URLs c)
      = Some {| URLsConfig.URL := url; URLsConfig.Name := name |}
  | call_DeepLinking b => Config.DeepLinking c = b
  | call_DocExpansion s => Config.DocExpansion c = s
  | call_DomID s => Config.DomID c = s
  | call_InstanceName s => Config.InstanceName c = s
  | call_PersistAuthorization b => Config.PersistAuthorization c = b
  | call_DisplayOperationID b => Config.DisplayOperationID c = b
  | call_DefaultModelsExpandDepth n => Config.DefaultModelsExpandDepth c = n
  | call_DefaultModelExpandDepth n => Config.DefaultModelExpandDepth c = n
  | call_DefaultModelRendering s => Config.DefaultModelRendering c = s
  | call_DisplayRequestDuration b => Config.DisplayRequestDuration c = b
  | call_ShowExtensions b => Config.ShowExtensions c = b
  | call_ShowCommonExtensions b => Config.ShowCommonExtensions c = b
  | call_SupportedSubmitMethods ms => Config.SupportedSubmitMethods c = ms
  | call_Plugins ps => Config.Plugins c = template.toJS <$> ps
  | call_UIConfig props => Config.UIConfig c = Some (JS_table props)
  | call_BeforeScript js => Config.BeforeScript c = template.toJS js
  | call_AfterScript js => Config.AfterScript c = template.toJS js
  end.

(** The arguments of the [URLs] calls of a sequence, in call order. *)
Definition URLs_calls (os : list call) : list URLsConfig.t :=
  omap (fun o =>
          match o with
          | call_URLs url name =>
              Some {| URLsConfig.URL := url; URLsConfig.Name := name |}
          | _ => None
          end) os.

Definition is_URLs_call (o : call) : bool :=
  match o with
  | call_URLs _ _ => true
  | _ => false
  end.

(** The arguments of the [InstanceName] calls of a sequence, in call order. *)
Definition InstanceName_calls (os : list call) : list string :=
  omap (fun o =>
          match o with
          | call_InstanceName name => Some name
          | _ => None
          end) os.

(** What a call does to the record when nothing panics. *)
Definition effect (c : Config.t) (o : call) : Config.t :=
  match o with
  | call_URL url => Config.with_URL url c
  | call_URLs url name =>
      Config.with_URLs
        (Config.URLs c ++ [ {| URLsConfig.URL := url; URLsConfig.Name := name |} ]) c
  | call_DeepLinking b => Config.with_DeepLinking b c
  | call_DocExpansion s => Config.with_DocExpansion s c
  | call_DomID s => Config.with_DomID s c
  | call_InstanceName s => Config.with_InstanceName s c
  | call_PersistAuthorization b => Config.with_PersistAuthorization b c
  | call_DisplayOperationID b => Config.with_DisplayOperationID b c
  | call_DefaultModelsExpandDepth n => Config.with_DefaultModelsExpandDepth n c
  | call_DefaultModelExpandDepth n => Config.with_DefaultModelExpandDepth n c
  | call_DefaultModelRendering s => Config.with_DefaultModelRendering s c
  | call_DisplayRequestDuration b => Config.with_DisplayRequestDuration b c
  | call_ShowExtensions b => Config.with_ShowExtensions b c
  | call_ShowCommonExtensions b => Config.with_ShowCommonExtensions b c
  | call_SupportedSubmitMethods ms => Config.with_SupportedSubmitMethods ms c
  | call_Plugins ps => Config.with_Plugins (template.toJS <$> ps) c
  | call_UIConfig props => Config.with_UIConfig (Some (JS_table props)) c
  | call_BeforeScript js => Config.with_BeforeScript (template.toJS js) c
  | call_AfterScript js => Config.with_AfterScript (template.toJS js) c
  end.

(** The last statement of [newConfig], as a function of the record the loop
    leaves. *)
Definition backfill (config : Config.t) : Config.t :=
  if decide (Config.InstanceName config = "")
  then Config.with_InstanceName swag.Name config
  else config.

(** One turn of the loop of [UIConfig] on a table, and the entry it
    writes. *)
Definition convert_entry (kv : string * string) : template.JS * template.JS :=
  (template.toJS kv.1, template.toJS kv.2).

Definition store_entry (tbl : gmap template.JS template.JS)
    (kv : string * string) : gmap template.JS template.JS :=
  <[(convert_entry kv).1 := (convert_entry kv).2]> tbl.

(** The record every field of which has its documented default, the instance
    name being the backfilled [swag.Name]. *)
Definition default_record : Config.t :=
  {| Config.URL := "doc.json";
     Config.URLs := [];
     Config.DocExpansion := "list";
     Config.DeepLinking := true;
     Config.DomID := "swagger-ui";
     Config.PersistAuthorization := false;
     Config.DisplayOperationID := false;
     Config.DefaultModelsExpandDepth := 1;
     Config.DefaultModelExpandDepth := 1;
     Config.DefaultModelRendering := "example";
     Config.DisplayRequestDuration := false;
     Config.ShowExtensions := false;
     Config.ShowCommonExtensions := false;
     Config.SupportedSubmitMethods :=
       ["get"; "put"; "post"; "delete"; "options"; "head"; "patch"; "trace"];
     Config.TryItOutEnabled := false;
     Config.InstanceName := swag.Name;
     Config.BeforeScript := template.toJS "";
     Config.AfterScript := template.toJS "";
     Config.Plugins := [];
     Config.UIConfig := None |}.

(** Last write wins, as the specification words it: the value a scalar option was last
    invoked with is the value of its field in the record returned. *)
Definition last_write_wins (o : call) : Prop :=
  ∀ os1 os2 : list call,
    not_invoked_in o os2 = true →
    ∃ c, newConfig (option_of <$> (os1 ++ o :: os2)) = Ok c ∧ in_effect o c.

(** [same_field o c1 c2]: the records [c1] and [c2] agree on the field the
    option of [o] assigns. *)
Definition same_field (o : call) (c1 c2 : Config.t) : Prop :=
  match o with
  | call_URL _ => Config.URL c1 = Config.URL c2
  | call_URLs _ _ => Config.URLs c1 = Config.URLs c2
  | call_DeepLinking _ => Config.DeepLinking c1 = Config.DeepLinking c2
  | call_DocExpansion _ => Config.DocExpansion c1 = Config.DocExpansion c2
  | call_DomID _ => Config.DomID c1 = Config.DomID c2
  | call_InstanceName _ => Config.InstanceName c1 = Config.InstanceName c2
  | call_PersistAuthorization _ =>
      Config.PersistAuthorization c1 = Config.PersistAuthorization c2
  | call_DisplayOperationID _ =>
      Config.DisplayOperationID c1 = Config.DisplayOperationID c2
  | call_DefaultModelsExpandDepth _ =>
      Config.DefaultModelsExpandDepth c1 = Config.DefaultModelsExpandDepth c2
  | call_DefaultModelExpandDepth _ =>
      Config.DefaultModelExpandDepth c1 = Config.DefaultModelExpandDepth c2
  | call_DefaultModelRendering _ =>
      Config.DefaultModelRendering c1 = Config.DefaultModelRendering c2
  | call_DisplayRequestDuration _ =>
      Config.DisplayRequestDuration c1 = Config.DisplayRequestDuration c2
  | call_ShowExtensions _ => Config.ShowExtensions c1 = Config.ShowExtensions c2
  | call_ShowCommonExtensions _ =>
      Config.ShowCommonExtensions c1 = Config.ShowCommonExtensions c2
  | call_SupportedSubmitMethods _ =>
      Config.SupportedSubmitMethods c1 = Config.SupportedSubmitMethods c2
  | call_Plugins _ => Config.Plugins c1 = Config.Plugins c2
  | call_UIConfig _ => Config.UIConfig c1 = Config.UIConfig c2
  | call_BeforeScript _ => Config.BeforeScript c1 = Config.BeforeScript c2
  | call_AfterScript _ => Config.AfterScript c1 = Config.AfterScript c2
  end.

(** The calls of a sequence that invoke the option of [o], in call order,
    and the last of them, if any. *)
Definition calls_of (o : call) (os : list call) : list call :=
  filter (fun a => same_option o a = true) os.

Definition last_call (o : call) (os : list call) : option call :=
  last (calls_of o os).

(** A function a caller could pass beside the options of the package:
    [func(c *Config) { c.UIConfig[k] = v }], an assignment into the map the
    record holds at that moment. *)
Definition assign_UIConfig_entry (k v : template.JS) : ConfigFn :=
  fun c =>
    vs ← map_store (Config.UIConfig c) k v;
    Ok (Config.with_UIConfig vs c).

(** * Properties *)

(** ** The monad *)

Lemma bind_Ok {A B} (a : A) (f : A → result B) : (Ok a ≫= f) = f a.
Proof. reflexivity. Qed.

Lemma bind_Panic {A B} (p : panic) (f : A → result B) :
  (Panic p ≫= f) = Panic p.
Proof. reflexivity. Qed.

(** ** The loop of [Plugins] *)

Lemma slice_store_in_range {A} (pre post : list A) (old x : A) :
  slice_store (pre ++ old :: post) (length pre) x = Ok (pre ++ x :: post).
Proof.
  unfold slice_store. rewrite decide_True.
  - f_equal. rewrite <- (Nat.add_0_r (length pre)) at 1.
    by rewrite insert_app_r.
  - rewrite length_app. simpl. lia.
Qed.

Lemma Plugins_loop_fills (plugins : list string) :
  ∀ done : list template.JS,
    Plugins_loop (length done) plugins
      (done ++ make_slice template.zero (length plugins))
    = Ok (done ++ (template.toJS <$> plugins)).
Proof.
  induction plugins as [|v rest IH]; intros done.
  - reflexivity.
  - cbn [Plugins_loop length]. unfold make_slice.
    rewrite replicate_S, slice_store_in_range, bind_Ok.
    specialize (IH (done ++ [template.toJS v])).
    rewrite length_app, Nat.add_1_r, <- !app_assoc in IH. exact IH.
Qed.

Lemma Plugins_ok (plugins : list string) (c : Config.t) :
  Plugins plugins c = Ok (Config.with_Plugins (template.toJS <$> plugins) c).
Proof.
  unfold Plugins.
  pose proof (Plugins_loop_fills plugins []) as Hloop.
  cbn [length app] in Hloop. by rewrite Hloop.
Qed.

(** ** The loop of [UIConfig] *)

Lemma UIConfig_loop_stores (entries : list (string * string)) :
  ∀ tbl, UIConfig_loop entries (Some tbl)
         = Ok (Some (foldl store_entry tbl entries)).
Proof.
  induction entries as [|[k v] rest IH]; intros tbl.
  - reflexivity.
  - cbn [UIConfig_loop map_store foldl]. rewrite bind_Ok. apply IH.
Qed.

Lemma convert_entry_keys (entries : list (string * string)) :
  (convert_entry <$> entries).*1 = template.toJS <$> entries.*1.
Proof.
  induction entries as [|[k v] rest IH]; [done|].
  rewrite !fmap_cons, IH. reflexivity.
Qed.

Lemma foldl_store_entry (entries : list (string * string)) :
  NoDup (entries.*1) →
  ∀ tbl, foldl store_entry tbl entries
         = list_to_map (convert_entry <$> entries) ∪ tbl.
Proof.
  induction entries as [|[k v] rest IH]; intros Hnodup tbl.
  - simpl. by rewrite (left_id_L ∅ (∪)).
  - cbn [fmap list_fmap fst] in Hnodup. apply NoDup_cons in Hnodup as [Hk Hrest].
    cbn [foldl]. rewrite IH by done. unfold store_entry. simpl.
    rewrite <- insert_union_l. rewrite insert_union_r; [done|].
    apply not_elem_of_list_to_map_1. rewrite convert_entry_keys.
    intros (k' & Heq & Hin)%list_elem_of_fmap.
    apply (inj template.toJS) in Heq. by subst.
Qed.

Lemma list_to_map_convert_entry (props : gmap string string)
    (entries : list (string * string)) :
  entries ≡ₚ map_to_list props →
  list_to_map (convert_entry <$> entries) = JS_table props.
Proof.
  intros Hperm. unfold JS_table, kmap. apply list_to_map_proper.
  - rewrite convert_entry_keys. apply (NoDup_fmap_2 _).
    rewrite Hperm. apply NoDup_fst_map_to_list.
  - rewrite map_to_list_fmap, <- list_fmap_compose, Hperm.
    apply reflexive_eq, list_fmap_ext. by intros i [k v] _.
Qed.

(** Whatever order the run-time yields the entries in, [UIConfig] stores the
    converted table. *)
Lemma UIConfig_any_order (props : gmap string string)
    (entries : list (string * string)) (c : Config.t) :
  entries ≡ₚ map_to_list props →
  UIConfig_in_order entries (size props) c
  = Ok (Config.with_UIConfig (Some (JS_table props)) c).
Proof.
  intros Hperm. unfold UIConfig_in_order, make_map.
  rewrite UIConfig_loop_stores, bind_Ok, foldl_store_entry.
  - by rewrite (right_id_L ∅ (∪)), (list_to_map_convert_entry props).
  - rewrite Hperm. apply NoDup_fst_map_to_list.
Qed.

Lemma UIConfig_ok (props : gmap string string) (c : Config.t) :
  UIConfig props c = Ok (Config.with_UIConfig (Some (JS_table props)) c).
Proof. by apply UIConfig_any_order. Qed.

(** ** The converted table *)

Lemma JS_table_lookup (props : gmap string string) (k : string) :
  JS_table props !! template.toJS k = template.toJS <$> props !! k.
Proof. unfold JS_table. by rewrite lookup_kmap, lookup_fmap by apply _. Qed.

Lemma JS_table_size (props : gmap string string) :
  size (JS_table props) = size props.
Proof.
  unfold JS_table.
  rewrite <- !length_map_to_list, map_to_list_kmap by apply _.
  by rewrite length_fmap, !length_map_to_list, map_size_fmap.
Qed.

Lemma JS_table_singleton (k v : string) :
  JS_table {[ k := v ]} = {[ template.toJS k := template.toJS v ]}.
Proof. unfold JS_table. by rewrite map_fmap_singleton, kmap_singleton by apply _. Qed.

(** ** Options of the catalogue never panic *)

Lemma option_of_ok (o : call) (c : Config.t) : option_of o c = Ok (effect c o).
Proof.
  destruct o; try reflexivity.
  - apply Plugins_ok.
  - apply UIConfig_ok.
Qed.

Lemma newConfig_loop_app (fns1 fns2 : list ConfigFn) :
  ∀ c, newConfig_loop (fns1 ++ fns2) c
       = newConfig_loop fns1 c ≫= newConfig_loop fns2.
Proof.
  induction fns1 as [|fn rest IH]; intros c.
  - reflexivity.
  - cbn [app newConfig_loop]. destruct (fn c) as [c'|p].
    + rewrite !bind_Ok. apply IH.
    + reflexivity.
Qed.

Lemma newConfig_loop_catalogue (os : list call) :
  ∀ c, newConfig_loop (option_of <$> os) c = Ok (foldl effect c os).
Proof.
  induction os as [|o rest IH]; intros c.
  - reflexivity.
  - rewrite fmap_cons. cbn [newConfig_loop foldl].
    rewrite option_of_ok, bind_Ok. apply IH.
Qed.

Lemma newConfig_backfill (fns : list ConfigFn) :
  newConfig fns = backfill <$> newConfig_loop fns newConfig_literal.
Proof.
  unfold newConfig.
  destruct (newConfig_loop fns newConfig_literal) as [c|p]; [|reflexivity].
  rewrite bind_Ok. change (backfill <$> Ok c) with (Ok (backfill c)).
  unfold backfill. by destruct (decide _).
Qed.

Lemma newConfig_catalogue (os : list call) :
  newConfig (option_of <$> os)
  = Ok (backfill (foldl effect newConfig_literal os)).
Proof. by rewrite newConfig_backfill, newConfig_loop_catalogue. Qed.

(** ** The backfill of the instance name *)

Lemma swag_Name_nonempty : swag.Name ≠ "".
Proof. discriminate. Qed.

Lemma backfill_InstanceName (c : Config.t) :
  Config.InstanceName (backfill c)
  = if decide (Config.InstanceName c = "") then swag.Name
    else Config.InstanceName c.
Proof. unfold backfill. by case_decide. Qed.

Lemma backfill_nonempty (c : Config.t) : Config.InstanceName (backfill c) ≠ "".
Proof.
  rewrite backfill_InstanceName. case_decide; [apply swag_Name_nonempty|done].
Qed.

(** Whatever the functions passed, also ones from outside the catalogue, a
    record [newConfig] returns has a name. *)
Lemma newConfig_InstanceName_nonempty (fns : list ConfigFn) (c : Config.t) :
  newConfig fns = Ok c → Config.InstanceName c ≠ "".
Proof.
  rewrite newConfig_backfill.
  destruct (newConfig_loop fns newConfig_literal) as [c'|p]; [|done].
  intros [= <-]. apply backfill_nonempty.
Qed.

Lemma in_effect_backfill (o : call) (c : Config.t) :
  o ≠ call_InstanceName "" → in_effect o c → in_effect o (backfill c).
Proof.
  intros Ho. unfold backfill. case_decide as Hname; [|done].
  destruct o; try done.
  simpl. intros Heq. destruct Ho. congruence.
Qed.

(** ** Frame: what a call leaves alone *)

Lemma in_effect_effect (o : call) (c : Config.t) : in_effect o (effect c o).
Proof. destruct o; simpl; try reflexivity. apply last_snoc. Qed.

Lemma in_effect_preserved (o o' : call) (c : Config.t) :
  same_option o o' = false → in_effect o c → in_effect o (effect c o').
Proof. destruct o, o'; simpl; done. Qed.

Lemma in_effect_foldl (o : call) (os : list call) :
  not_invoked_in o os = true →
  ∀ c, in_effect o c → in_effect o (foldl effect c os).
Proof.
  induction os as [|o' rest IH]; intros Hnot c Hc; [done|].
  cbn [not_invoked_in forallb] in Hnot.
  apply andb_prop in Hnot as [Ho' Hrest]. apply negb_true_iff in Ho'.
  cbn [foldl]. apply IH; [done|]. by apply in_effect_preserved.
Qed.

Lemma last_call_in_effect (os1 os2 : list call) (o : call) :
  not_invoked_in o os2 = true →
  in_effect o (foldl effect newConfig_literal (os1 ++ o :: os2)).
Proof.
  intros Hnot. rewrite foldl_app. cbn [foldl].
  apply in_effect_foldl; [done|]. apply in_effect_effect.
Qed.

Lemma URLs_foldl (os : list call) :
  ∀ c, Config.URLs (foldl effect c os) = Config.URLs c ++ URLs_calls os.
Proof.
  induction os as [|o rest IH]; intros c.
  - simpl. by rewrite app_nil_r.
  - cbn [foldl]. rewrite IH.
    destruct o; try reflexivity.
    simpl. by rewrite <- app_assoc.
Qed.

Lemma URLs_backfill (c : Config.t) : Config.URLs (backfill c) = Config.URLs c.
Proof. unfold backfill. by case_decide. Qed.

Lemma TryItOutEnabled_foldl (os : list call) :
  ∀ c, Config.TryItOutEnabled (foldl effect c os) = Config.TryItOutEnabled c.
Proof.
  induction os as [|o rest IH]; intros c; [done|].
  cbn [foldl]. rewrite IH. by destruct o.
Qed.

Lemma TryItOutEnabled_backfill (c : Config.t) :
  Config.TryItOutEnabled (backfill c) = Config.TryItOutEnabled c.
Proof. unfold backfill. by case_decide. Qed.

Lemma InstanceName_foldl (os : list call) :
  ∀ c, Config.InstanceName (foldl effect c os)
       = default (Config.InstanceName c) (last (InstanceName_calls os)).
Proof.
  induction os as [|o rest IH]; intros c; [done|].
  cbn [foldl]. rewrite IH.
  destruct o; try reflexivity.
  unfold InstanceName_calls. cbn [omap list_omap]. simpl.
  rewrite last_cons. by destruct (last _).
Qed.

(** * The specification, claim by claim *)

(** C1. [newConfig] applied to no option returns the record of the
    documented defaults: URL doc.json, no named URL, DocExpansion list, DomID
    swagger-ui, DeepLinking true, depths 1, rendering example, the eight submit
    methods get, put, post, delete, options, head, patch, trace, every other
    toggle false, empty scripts, no plugin, the nil UI-config map (and the
    instance name backfilled with [swag.Name]). *)
Theorem newConfig_no_options :
  newConfig [] = Ok default_record
  ∧ length (Config.SupportedSubmitMethods default_record) = 8%nat
  ∧ map_len (Config.UIConfig default_record) = 0%nat.
Proof. repeat split; reflexivity. Qed.

(** C2. Whatever the sequence of catalogue options, the record returned has
    a non-empty instance name: it is [swag.Name] when [InstanceName] was never
    invoked or was last invoked with the empty string, and the argument of the
    last invocation, verbatim, when that argument is not empty. *)
Theorem InstanceName_backfilled (os : list call) :
  ∃ c, newConfig (option_of <$> os) = Ok c
       ∧ Config.InstanceName c ≠ ""
       ∧ Config.InstanceName c
         = match last (InstanceName_calls os) with
           | None => swag.Name
           | Some name => if decide (name = "") then swag.Name else name
           end.
Proof.
  eexists. split; [apply newConfig_catalogue|]. split.
  - apply backfill_nonempty.
  - rewrite backfill_InstanceName, InstanceName_foldl.
    destruct (last (InstanceName_calls os)) as [name|]; reflexivity.
Qed.

(** C3 fails for [InstanceName]: invoked with a name and then with the empty
    string, it leaves [swag.Name] in the record, not the empty string. *)
Lemma InstanceName_empty_last_write_lost :
  scalar (call_InstanceName "") = true
  ∧ newConfig [InstanceName "a"; InstanceName ""]
    = Ok (Config.with_InstanceName "swagger" default_record)
  ∧ ¬ last_write_wins (call_InstanceName "").
Proof.
  split; [reflexivity|]. split; [reflexivity|].
  intros Hclaim.
  destruct (Hclaim [call_InstanceName "a"] [] eq_refl) as (c & Hc & Heff).
  injection Hc as <-. discriminate Heff.
Qed.

(** C3, amended. The options are applied in the order given, each to the
    record the one before it left; so the value a scalar option was last
    invoked with is the value of its field in the record returned, except
    that an empty instance name is replaced by [swag.Name]. *)
Theorem scalar_last_write_wins (os1 os2 : list call) (o : call) :
  scalar o = true →
  not_invoked_in o os2 = true →
  newConfig_loop (option_of <$> (os1 ++ o :: os2)) newConfig_literal
  = (newConfig_loop (option_of <$> os1) newConfig_literal ≫= option_of o)
    ≫= newConfig_loop (option_of <$> os2)
  ∧ ∃ c, newConfig (option_of <$> (os1 ++ o :: os2)) = Ok c
         ∧ (o ≠ call_InstanceName "" → in_effect o c)
         ∧ (o = call_InstanceName "" → Config.InstanceName c = swag.Name).
Proof.
  intros _ Hnot. split.
  - rewrite fmap_app, fmap_cons, newConfig_loop_app. cbn [newConfig_loop].
    by destruct (newConfig_loop (option_of <$> os1) newConfig_literal).
  - eexists. split; [apply newConfig_catalogue|]. split.
    + intros Ho. apply in_effect_backfill; [done|].
      by apply last_call_in_effect.
    + intros ->. rewrite backfill_InstanceName.
      pose proof (last_call_in_effect os1 os2 _ Hnot) as Hlast.
      simpl in Hlast. rewrite Hlast. reflexivity.
Qed.

Lemma scalar_last_write_wins_witness :
  scalar (call_URL "b.json") = true
  ∧ not_invoked_in (call_URL "b.json") [call_DeepLinking false] = true
  ∧ ∃ c, newConfig [URL "a.json"; URL "b.json"; DeepLinking false] = Ok c
         ∧ Config.URL c = "b.json".
Proof.
  split; [reflexivity|]. split; [reflexivity|].
  destruct (scalar_last_write_wins
              [call_URL "a.json"] [call_DeepLinking false] (call_URL "b.json")
              eq_refl eq_refl) as (_ & c & Hc & Heff & _).
  exists c. split; [exact Hc|]. apply Heff. discriminate.
Defined.

(** C4. [SupportedSubmitMethods], [Plugins] and [UIConfig] replace: after the
    last invocation of one of them, the field holds the argument of that
    invocation and nothing else (for [Plugins] and [UIConfig], converted to
    [template.JS]); nothing of the default or of an earlier value is left. *)
Theorem replacing_options_replace (os1 os2 : list call) (o : call) :
  replacing o = true →
  not_invoked_in o os2 = true →
  ∃ c, newConfig (option_of <$> (os1 ++ o :: os2)) = Ok c
       ∧ match o with
         | call_SupportedSubmitMethods ms => Config.SupportedSubmitMethods c = ms
         | call_Plugins ps => Config.Plugins c = template.toJS <$> ps
         | call_UIConfig props =>
             ∃ tbl, Config.UIConfig c = Some tbl
                    ∧ size tbl = size props
                    ∧ ∀ k, tbl !! template.toJS k = template.toJS <$> props !! k
         | _ => False
         end.
Proof.
  intros Hrep Hnot.
  eexists. split; [apply newConfig_catalogue|].
  pose proof (last_call_in_effect os1 os2 o Hnot) as Hlast.
  assert (o ≠ call_InstanceName "") as Ho by (by destruct o).
  apply (in_effect_backfill _ _ Ho) in Hlast.
  destruct o; try discriminate Hrep; simpl in Hlast; try exact Hlast.
  eexists. split; [exact Hlast|]. split.
  - apply JS_table_size.
  - apply JS_table_lookup.
Qed.

Lemma replacing_options_replace_witness :
  replacing (call_SupportedSubmitMethods ["get"; "post"]) = true
  ∧ not_invoked_in (call_SupportedSubmitMethods ["get"; "post"])
      [call_URL "x.json"] = true
  ∧ ∃ c, newConfig [SupportedSubmitMethods ["head"];
                    SupportedSubmitMethods ["get"; "post"]; URL "x.json"] = Ok c
         ∧ Config.SupportedSubmitMethods c = ["get"; "post"].
Proof.
  split; [reflexivity|]. split; [reflexivity|].
  exact (replacing_options_replace
           [call_SupportedSubmitMethods ["head"]] [call_URL "x.json"]
           (call_SupportedSubmitMethods ["get"; "post"]) eq_refl eq_refl).
Defined.

(** C5. Whatever the sequence of catalogue options, the [URLs] field of the
    record returned lists the (url, name) arguments of the [URLs] calls of the
    sequence, one entry per call, in call order. *)
Theorem URLs_appends_in_call_order (os : list call) :
  ∃ c, newConfig (option_of <$> os) = Ok c
       ∧ Config.URLs c = URLs_calls os
       ∧ length (Config.URLs c)
         = length (filter (fun o => is_URLs_call o = true) os).
Proof.
  eexists. split; [apply newConfig_catalogue|].
  rewrite URLs_backfill, URLs_foldl. cbn [Config.URLs newConfig_literal app].
  split; [reflexivity|].
  induction os as [|o rest IH]; [reflexivity|].
  destruct o; (rewrite filter_cons_True by reflexivity)
              || (rewrite filter_cons_False by discriminate);
    unfold URLs_calls in *; cbn [omap list_omap length]; congruence.
Qed.

(** C6. No option of the catalogue and no construction from them fails: an
    option returns a record, the one that holds the argument as passed,
    whatever the argument (an unknown expansion or rendering mode, a negative
    depth, an empty URL), and [newConfig] returns a record for every sequence
    of options. *)
Theorem options_and_newConfig_total :
  (∀ (o : call) (c : Config.t),
     ∃ c', option_of o c = Ok c' ∧ in_effect o c')
  ∧ (∀ (s : string) (n : Z) (c : Config.t),
       DocExpansion s c = Ok (Config.with_DocExpansion s c)
       ∧ DefaultModelRendering s c = Ok (Config.with_DefaultModelRendering s c)
       ∧ DefaultModelsExpandDepth n c
         = Ok (Config.with_DefaultModelsExpandDepth n c)
       ∧ DefaultModelExpandDepth n c
         = Ok (Config.with_DefaultModelExpandDepth n c)
       ∧ URL s c = Ok (Config.with_URL s c))
  ∧ (∀ os : list call, is_Ok (newConfig (option_of <$> os)) = true).
Proof.
  split; [|split].
  - intros o c. exists (effect c o).
    split; [apply option_of_ok|apply in_effect_effect].
  - intros s n c. repeat split.
  - intros os. by rewrite newConfig_catalogue.
Qed.

(** C7. [newConfig] applied to [URL("custom.yaml")] and [DeepLinking(false)]
    returns the record of the defaults but for the URL, custom.yaml, and
    DeepLinking, false. *)
Theorem newConfig_URL_DeepLinking :
  newConfig [URL "custom.yaml"; DeepLinking false]
  = Ok {| Config.URL := "custom.yaml";
          Config.URLs := Config.URLs default_record;
          Config.DocExpansion := Config.DocExpansion default_record;
          Config.DeepLinking := false;
          Config.DomID := Config.DomID default_record;
          Config.PersistAuthorization :=
            Config.PersistAuthorization default_record;
          Config.DisplayOperationID := Config.DisplayOperationID default_record;
          Config.DefaultModelsExpandDepth :=
            Config.DefaultModelsExpandDepth default_record;
          Config.DefaultModelExpandDepth :=
            Config.DefaultModelExpandDepth default_record;
          Config.DefaultModelRendering :=
            Config.DefaultModelRendering default_record;
          Config.DisplayRequestDuration :=
            Config.DisplayRequestDuration default_record;
          Config.ShowExtensions := Config.ShowExtensions default_record;
          Config.ShowCommonExtensions :=
            Config.ShowCommonExtensions default_record;
          Config.SupportedSubmitMethods :=
            Config.SupportedSubmitMethods default_record;
          Config.TryItOutEnabled := Config.TryItOutEnabled default_record;
          Config.InstanceName := Config.InstanceName default_record;
          Config.BeforeScript := Config.BeforeScript default_record;
          Config.AfterScript := Config.AfterScript default_record;
          Config.Plugins := Config.Plugins default_record;
          Config.UIConfig := Config.UIConfig default_record |}.
Proof. reflexivity. Qed.

(** C8. [UIConfig] stores a fresh table of the converted entries:
    constructing with the one entry x ↦ 1 gives a table of exactly one entry,
    from the script x to the script 1.  [Plugins] stores the converted
    strings, as many as it was given and in the same order. *)
Theorem UIConfig_and_Plugins_convert :
  (∃ c tbl, newConfig [UIConfig {[ "x" := "1" ]}] = Ok c
            ∧ Config.UIConfig c = Some tbl
            ∧ tbl = {[ template.toJS "x" := template.toJS "1" ]}
            ∧ size tbl = 1%nat
            ∧ tbl !! template.toJS "x" = Some (template.toJS "1"))
  ∧ (∀ (props : gmap string string) (entries : list (string * string))
       (c : Config.t),
       entries ≡ₚ map_to_list props →
       ∃ c' tbl, UIConfig_in_order entries (size props) c = Ok c'
                 ∧ Config.UIConfig c' = Some tbl
                 ∧ size tbl = size props
                 ∧ ∀ k, tbl !! template.toJS k = template.toJS <$> props !! k)
  ∧ (∀ plugins : list string,
       ∃ c, newConfig [Plugins plugins] = Ok c
            ∧ Config.Plugins c = template.toJS <$> plugins
            ∧ length (Config.Plugins c) = length plugins
            ∧ ∀ i : nat,
                Config.Plugins c !! i = template.toJS <$> plugins !! i).
Proof.
  split; [|split].
  - eexists _, _. split; [apply (newConfig_catalogue [call_UIConfig _])|].
    split; [reflexivity|]. rewrite JS_table_singleton.
    split; [reflexivity|]. split.
    + apply map_size_singleton.
    + apply lookup_singleton_eq.
  - intros props entries c Hperm. eexists _, _.
    split; [by apply UIConfig_any_order|]. split; [reflexivity|]. split.
    + apply JS_table_size.
    + apply JS_table_lookup.
  - intros plugins. eexists.
    split; [apply (newConfig_catalogue [call_Plugins _])|].
    split; [reflexivity|]. split.
    + apply length_fmap.
    + intros i. apply list_lookup_fmap.
Qed.

Lemma UIConfig_and_Plugins_convert_witness :
  [("x", "1")] ≡ₚ map_to_list ({[ "x" := "1" ]} : gmap string string)
  ∧ ∃ c tbl, UIConfig_in_order [("x", "1")] 1 newConfig_literal = Ok c
             ∧ Config.UIConfig c = Some tbl
             ∧ tbl !! template.toJS "x" = Some (template.toJS "1").
Proof.
  assert ([("x", "1")] ≡ₚ map_to_list ({[ "x" := "1" ]} : gmap string string))
    as Hperm by (by rewrite map_to_list_singleton).
  split; [exact Hperm|].
  destruct (proj1 (proj2 UIConfig_and_Plugins_convert)
              {[ "x" := "1" ]} [("x", "1")] newConfig_literal Hperm)
    as (c & tbl & Hc & Htbl & _ & Hlookup).
  exists c, tbl. split; [exact Hc|]. split; [exact Htbl|]. apply Hlookup.
Defined.

(** C9. No option of the catalogue assigns [TryItOutEnabled]: whatever the
    sequence of options, the field is false in the record returned. *)
Theorem TryItOutEnabled_stays_false (os : list call) :
  ∃ c, newConfig (option_of <$> os) = Ok c
       ∧ Config.TryItOutEnabled c = false.
Proof.
  eexists. split; [apply newConfig_catalogue|].
  by rewrite TryItOutEnabled_backfill, TryItOutEnabled_foldl.
Qed.

(** C10. [SupportedSubmitMethods] invoked with no argument leaves an empty
    list of methods, not the default one, also when other options came
    before it. *)
Theorem SupportedSubmitMethods_no_argument :
  (∃ c, newConfig [SupportedSubmitMethods []] = Ok c
        ∧ Config.SupportedSubmitMethods c = []
        ∧ length (Config.SupportedSubmitMethods c) = 0%nat)
  ∧ (∀ os : list call,
       ∃ c, newConfig (option_of <$> (os ++ [call_SupportedSubmitMethods []]))
            = Ok c
            ∧ length (Config.SupportedSubmitMethods c) = 0%nat).
Proof.
  split.
  - eexists. split; [reflexivity|]. split; reflexivity.
  - intros os. eexists. split; [apply newConfig_catalogue|].
    pose proof (last_call_in_effect os [] (call_SupportedSubmitMethods [])
                  eq_refl) as Hlast.
    apply in_effect_backfill in Hlast; [|discriminate].
    simpl in Hlast. by rewrite Hlast.
Qed.

(** ** The scenarios of the specification, run *)

Example two_named_URLs :
  Config.URLs <$> newConfig [URLs "a.json" "A"; URLs "b.json" "B"]
  = Ok [ {| URLsConfig.URL := "a.json"; URLsConfig.Name := "A" |};
         {| URLsConfig.URL := "b.json"; URLsConfig.Name := "B" |} ].
Proof. reflexivity. Qed.

Example two_plugins :
  Config.Plugins <$> newConfig [Plugins ["PluginA"; "PluginB"]]
  = Ok [template.toJS "PluginA"; template.toJS "PluginB"].
Proof. reflexivity. Qed.

Example one_UIConfig_entry :
  Config.UIConfig <$> newConfig [UIConfig {[ "x" := "1" ]}]
  = Ok (Some {[ template.toJS "x" := template.toJS "1" ]}).
Proof. vm_compute. reflexivity. Qed.

Example InstanceName_kept :
  Config.InstanceName <$> newConfig [InstanceName "v1"; InstanceName "v2"]
  = Ok "v2".
Proof. reflexivity. Qed.

Example store_out_of_range :
  slice_store [template.zero] 1 (template.toJS "p")
  = Panic (IndexOutOfRange 1 1).
Proof. reflexivity. Qed.

Example store_into_nil_map :
  map_store (None : gomap template.JS template.JS)
    (template.toJS "x") (template.toJS "1")
  = Panic AssignToNilMap.
Proof. reflexivity. Qed.

(** * Further properties of the builder *)

(** ** Calls of different options commute, a call overwrites its own option *)

Lemma effect_commute (a b : call) (c : Config.t) :
  same_option a b = false →
  effect (effect c a) b = effect (effect c b) a.
Proof. destruct a, b; intros Hab; try discriminate Hab; reflexivity. Qed.

Lemma effect_absorb (a b : call) (c : Config.t) :
  same_option a b = true → is_URLs_call a = false →
  effect (effect c a) b = effect c b.
Proof.
  destruct a, b; intros Hab Ha;
    try discriminate Hab; try discriminate Ha; reflexivity.
Qed.

Lemma same_option_sym (a b : call) : same_option a b = same_option b a.
Proof. unfold same_option. apply Nat.eqb_sym. Qed.

Lemma same_option_trans (a b c : call) :
  same_option a b = true → same_option b c = true → same_option a c = true.
Proof.
  unfold same_option. rewrite !Nat.eqb_eq. congruence.
Qed.

Lemma same_option_URLs (a b : call) :
  same_option a b = true → is_URLs_call a = is_URLs_call b.
Proof. destruct a, b; intros Hab; try discriminate Hab; reflexivity. Qed.

(** ** One field at a time *)

Lemma same_field_refl (o : call) (c : Config.t) : same_field o c c.
Proof. by destruct o. Qed.

Lemma same_field_sym (o : call) (c1 c2 : Config.t) :
  same_field o c1 c2 → same_field o c2 c1.
Proof. by destruct o. Qed.

Lemma same_field_trans (o : call) (c1 c2 c3 : Config.t) :
  same_field o c1 c2 → same_field o c2 c3 → same_field o c1 c3.
Proof. destruct o; simpl; congruence. Qed.

Lemma same_field_other (o a : call) (c : Config.t) :
  same_option o a = false → same_field o (effect c a) c.
Proof. destruct o, a; intros Hoa; try discriminate Hoa; reflexivity. Qed.

Lemma same_field_overwritten (o a : call) (c1 c2 : Config.t) :
  same_option o a = true → is_URLs_call o = false →
  same_field o (effect c1 a) (effect c2 a).
Proof.
  destruct o, a; intros Hoa Ho;
    try discriminate Hoa; try discriminate Ho; reflexivity.
Qed.

Lemma same_field_backfill (o : call) (c1 c2 : Config.t) :
  same_field o c1 c2 → same_field o (backfill c1) (backfill c2).
Proof.
  destruct o; try (unfold backfill; by repeat case_decide).
  simpl. rewrite !backfill_InstanceName. by intros ->.
Qed.

Lemma record_eq (c1 c2 : Config.t) :
  (∀ o, same_field o c1 c2) →
  Config.TryItOutEnabled c1 = Config.TryItOutEnabled c2 →
  c1 = c2.
Proof.
  intros Hfields Htry.
  pose proof (Hfields (call_URL "")) as H1.
  pose proof (Hfields (call_URLs "" "")) as H2.
  pose proof (Hfields (call_DeepLinking true)) as H3.
  pose proof (Hfields (call_DocExpansion "")) as H4.
  pose proof (Hfields (call_DomID "")) as H5.
  pose proof (Hfields (call_InstanceName "")) as H6.
  pose proof (Hfields (call_PersistAuthorization true)) as H7.
  pose proof (Hfields (call_DisplayOperationID true)) as H8.
  pose proof (Hfields (call_DefaultModelsExpandDepth 0)) as H9.
  pose proof (Hfields (call_DefaultModelExpandDepth 0)) as H10.
  pose proof (Hfields (call_DefaultModelRendering "")) as H11.
  pose proof (Hfields (call_DisplayRequestDuration true)) as H12.
  pose proof (Hfields (call_ShowExtensions true)) as H13.
  pose proof (Hfields (call_ShowCommonExtensions true)) as H14.
  pose proof (Hfields (call_SupportedSubmitMethods [])) as H15.
  pose proof (Hfields (call_Plugins [])) as H16.
  pose proof (Hfields (call_UIConfig ∅)) as H17.
  pose proof (Hfields (call_BeforeScript "")) as H18.
  pose proof (Hfields (call_AfterScript "")) as H19.
  clear Hfields. destruct c1, c2. simpl in *. by subst.
Qed.

(** The field of an overwriting option, after a run of calls, is what the
    last call of that option alone would have left. *)
Lemma same_field_last_call (o : call) (os : list call) (c : Config.t) :
  is_URLs_call o = false →
  same_field o (foldl effect c os)
    (match last_call o os with
     | Some a => effect c a
     | None => c
     end).
Proof.
  intros Ho. unfold last_call, calls_of.
  induction os as [|a os IH] using rev_ind.
  - apply same_field_refl.
  - rewrite foldl_app, filter_app. cbn [foldl].
    destruct (same_option o a) eqn:Hoa.
    + rewrite filter_cons_True, filter_nil, last_snoc by done.
      by apply same_field_overwritten.
    + rewrite filter_cons_False, filter_nil, app_nil_r by congruence.
      eapply same_field_trans; [by apply same_field_other|exact IH].
Qed.

Lemma last_call_same_option (o a : call) (os : list call) :
  last_call o os = Some a → same_option o a = true.
Proof.
  unfold last_call, calls_of. intros Hlast.
  apply last_Some_elem_of, list_elem_of_filter in Hlast. tauto.
Qed.

Lemma last_call_None (o : call) (os : list call) :
  last_call o os = None ↔ not_invoked_in o os = true.
Proof.
  unfold last_call, calls_of, not_invoked_in. rewrite last_None.
  induction os as [|a os IH]; [done|].
  cbn [forallb]. rewrite andb_true_iff, negb_true_iff, <- IH.
  destruct (same_option o a) eqn:Hoa.
  - rewrite filter_cons_True by done. split; [done|]. by intros [? _].
  - rewrite filter_cons_False by congruence. tauto.
Qed.

(** What decides the record the loop leaves: the last call of each
    overwriting option and the calls of [URLs]. *)
Lemma foldl_effect_determined (os os' : list call) (c : Config.t) :
  (∀ o, is_URLs_call o = false → last_call o os = last_call o os') →
  URLs_calls os = URLs_calls os' →
  foldl effect c os = foldl effect c os'.
Proof.
  intros Hlast Hurls. apply record_eq.
  - intros o. destruct (is_URLs_call o) eqn:Ho.
    + destruct o; try discriminate Ho. simpl.
      by rewrite !URLs_foldl, Hurls.
    + eapply same_field_trans; [by apply same_field_last_call|].
      rewrite (Hlast o Ho). by apply same_field_sym, same_field_last_call.
  - by rewrite !TryItOutEnabled_foldl.
Qed.

Lemma URLs_calls_app (os1 os2 : list call) :
  URLs_calls (os1 ++ os2) = URLs_calls os1 ++ URLs_calls os2.
Proof. unfold URLs_calls. apply omap_app. Qed.

Lemma URLs_calls_filter (os os' : list call) :
  calls_of (call_URLs "" "") os = calls_of (call_URLs "" "") os' →
  URLs_calls os = URLs_calls os'.
Proof.
  assert (∀ l, URLs_calls l = URLs_calls (calls_of (call_URLs "" "") l))
    as Hfilter.
  { unfold calls_of. induction l as [|a l IH]; [done|].
    destruct (same_option (call_URLs "" "") a) eqn:Ha.
    - rewrite filter_cons_True by done.
      unfold URLs_calls in *. cbn [omap list_omap]. by rewrite IH.
    - rewrite filter_cons_False by congruence.
      unfold URLs_calls in *. cbn [omap list_omap].
      by destruct a. }
  intros Heq. by rewrite (Hfilter os), (Hfilter os'), Heq.
Qed.

Lemma same_field_not_invoked (o : call) (os : list call) :
  not_invoked_in o os = true →
  ∀ c, same_field o (foldl effect c os) c.
Proof.
  induction os as [|a os IH]; intros Hnot c; [apply same_field_refl|].
  cbn [not_invoked_in forallb] in Hnot.
  apply andb_prop in Hnot as [Ha Hos]. apply negb_true_iff in Ha.
  cbn [foldl]. eapply same_field_trans; [by apply IH|].
  by apply same_field_other.
Qed.

Lemma foldl_effect_overwritten (o o' : call) (os : list call) :
  same_option o o' = true → is_URLs_call o = false →
  ∀ c, foldl effect (effect c o) (os ++ [o']) = foldl effect c (os ++ [o']).
Proof.
  intros Hoo' Ho. induction os as [|a os IH]; intros c.
  - simpl. by apply effect_absorb.
  - cbn [app foldl]. destruct (same_option o a) eqn:Hoa.
    + by rewrite effect_absorb.
    + by rewrite effect_commute, IH.
Qed.

(** Two records that differ at most in that one has the empty name where the
    other has [swag.Name] stay so under every call, and are backfilled to
    the same record. *)
Lemma empty_name_or_default_effect (c1 c2 : Config.t) (a : call) :
  c1 = c2
  ∨ (Config.InstanceName c1 = "" ∧ c2 = Config.with_InstanceName swag.Name c1) →
  effect c1 a = effect c2 a
  ∨ (Config.InstanceName (effect c1 a) = ""
     ∧ effect c2 a = Config.with_InstanceName swag.Name (effect c1 a)).
Proof.
  intros [->|[Hname ->]]; [by left|].
  destruct a; try (right; split; [exact Hname|reflexivity]).
  left. reflexivity.
Qed.

Lemma empty_name_or_default_foldl (os : list call) :
  ∀ c1 c2,
    c1 = c2
    ∨ (Config.InstanceName c1 = ""
       ∧ c2 = Config.with_InstanceName swag.Name c1) →
    backfill (foldl effect c1 os) = backfill (foldl effect c2 os).
Proof.
  induction os as [|a os IH]; intros c1 c2 Hrel.
  - destruct Hrel as [->|[Hname ->]]; [done|].
    unfold backfill. rewrite decide_True by done. by rewrite decide_False.
  - cbn [foldl]. by apply IH, empty_name_or_default_effect.
Qed.

(** ** Defaults, order and dead calls *)

(** An option the caller does not invoke leaves its field at the default:
    whatever the other options of the sequence, the field has the value of
    the record [newConfig] returns for no option at all. *)
Theorem unused_option_keeps_default (os : list call) (o : call) :
  not_invoked_in o os = true →
  ∃ c, newConfig (option_of <$> os) = Ok c ∧ same_field o c default_record.
Proof.
  intros Hnot. eexists. split; [apply newConfig_catalogue|].
  change default_record with (backfill newConfig_literal).
  by apply same_field_backfill, same_field_not_invoked.
Qed.

Lemma unused_option_keeps_default_witness :
  not_invoked_in (call_DocExpansion "full")
    [call_URL "api.yaml"; call_URLs "a.json" "A"; call_Plugins ["P"]] = true
  ∧ ∃ c, newConfig [URL "api.yaml"; URLs "a.json" "A"; Plugins ["P"]] = Ok c
         ∧ Config.DocExpansion c = "list".
Proof.
  split; [reflexivity|].
  exact (unused_option_keeps_default
           [call_URL "api.yaml"; call_URLs "a.json" "A"; call_Plugins ["P"]]
           (call_DocExpansion "full") eq_refl).
Defined.

(** The record returned depends on the option sequence only through the
    last call of each overwriting option and through the calls of [URLs]:
    two sequences that agree on these return the same record. *)
Theorem newConfig_determined_by_last_calls (os os' : list call) :
  (∀ o, is_URLs_call o = false → last_call o os = last_call o os') →
  URLs_calls os = URLs_calls os' →
  newConfig (option_of <$> os) = newConfig (option_of <$> os').
Proof.
  intros Hlast Hurls. rewrite !newConfig_catalogue.
  by rewrite (foldl_effect_determined os os').
Qed.

Lemma newConfig_determined_by_last_calls_witness :
  (∀ o, is_URLs_call o = false →
        last_call o [call_URL "a"; call_URLs "u" "n"; call_DeepLinking false;
                     call_URL "b"]
        = last_call o [call_DeepLinking true; call_URL "b"; call_URLs "u" "n";
                       call_DeepLinking false])
  ∧ newConfig [URL "a"; URLs "u" "n"; DeepLinking false; URL "b"]
    = newConfig [DeepLinking true; URL "b"; URLs "u" "n"; DeepLinking false].
Proof.
  assert (∀ o, is_URLs_call o = false →
               last_call o [call_URL "a"; call_URLs "u" "n";
                            call_DeepLinking false; call_URL "b"]
               = last_call o [call_DeepLinking true; call_URL "b";
                              call_URLs "u" "n"; call_DeepLinking false])
    as Hlast by (intros o Ho; destruct o; solve [reflexivity|discriminate Ho]).
  split; [exact Hlast|].
  exact (newConfig_determined_by_last_calls
           [call_URL "a"; call_URLs "u" "n"; call_DeepLinking false;
            call_URL "b"]
           [call_DeepLinking true; call_URL "b"; call_URLs "u" "n";
            call_DeepLinking false] Hlast eq_refl).
Defined.

(** Only the order among the calls of one option matters: two sequences
    that hold, for every option, the same calls of it in the same order
    return the same record, however the calls of different options are
    interleaved. *)
Theorem newConfig_order_across_options (os os' : list call) :
  (∀ o, calls_of o os = calls_of o os') →
  newConfig (option_of <$> os) = newConfig (option_of <$> os').
Proof.
  intros Hcalls. rewrite !newConfig_catalogue.
  rewrite (foldl_effect_determined os os'); [done| |].
  - intros o _. unfold last_call. by rewrite Hcalls.
  - apply URLs_calls_filter, Hcalls.
Qed.

Lemma newConfig_order_across_options_witness :
  (∀ o, calls_of o [call_URLs "a.json" "A"; call_DomID "ui";
                    call_URLs "b.json" "B"]
        = calls_of o [call_DomID "ui"; call_URLs "a.json" "A";
                      call_URLs "b.json" "B"])
  ∧ newConfig [URLs "a.json" "A"; DomID "ui"; URLs "b.json" "B"]
    = newConfig [DomID "ui"; URLs "a.json" "A"; URLs "b.json" "B"].
Proof.
  assert (∀ o, calls_of o [call_URLs "a.json" "A"; call_DomID "ui";
                           call_URLs "b.json" "B"]
               = calls_of o [call_DomID "ui"; call_URLs "a.json" "A";
                             call_URLs "b.json" "B"])
    as Hcalls by (intros o; destruct o; reflexivity).
  split; [exact Hcalls|].
  exact (newConfig_order_across_options
           [call_URLs "a.json" "A"; call_DomID "ui"; call_URLs "b.json" "B"]
           [call_DomID "ui"; call_URLs "a.json" "A"; call_URLs "b.json" "B"]
           Hcalls).
Defined.

(** A call of an overwriting option that is followed by another call of the
    same option is dead: removing it from the sequence changes no field of
    the record returned.  ([URLs] is no such option: each of its calls adds
    an entry.) *)
Theorem overwritten_call_is_dead (os1 os2 os3 : list call) (o o' : call) :
  same_option o o' = true →
  is_URLs_call o = false →
  newConfig (option_of <$> (os1 ++ o :: os2 ++ o' :: os3))
  = newConfig (option_of <$> (os1 ++ os2 ++ o' :: os3)).
Proof.
  intros Hoo' Ho. rewrite !newConfig_catalogue. do 2 f_equal.
  replace (os1 ++ o :: os2 ++ o' :: os3)
    with ((os1 ++ [o]) ++ (os2 ++ [o']) ++ os3)
    by (by rewrite <- !app_assoc).
  replace (os1 ++ os2 ++ o' :: os3) with (os1 ++ (os2 ++ [o']) ++ os3)
    by (by rewrite <- !app_assoc).
  rewrite (foldl_app effect (os1 ++ [o])), (foldl_app effect os1 [o]).
  rewrite (foldl_app effect os1 ((os2 ++ [o']) ++ os3)).
  rewrite !(foldl_app effect (os2 ++ [o']) os3). cbn [foldl].
  by rewrite (foldl_effect_overwritten o o').
Qed.

Lemma overwritten_call_is_dead_witness :
  same_option (call_Plugins ["Old"]) (call_Plugins ["New"]) = true
  ∧ is_URLs_call (call_Plugins ["Old"]) = false
  ∧ newConfig [URL "a"; Plugins ["Old"]; URLs "u" "n"; Plugins ["New"];
               DomID "ui"]
    = newConfig [URL "a"; URLs "u" "n"; Plugins ["New"]; DomID "ui"].
Proof.
  split; [reflexivity|]. split; [reflexivity|].
  exact (overwritten_call_is_dead
           [call_URL "a"] [call_URLs "u" "n"] [call_DomID "ui"]
           (call_Plugins ["Old"]) (call_Plugins ["New"]) eq_refl eq_refl).
Defined.

(** ** The instance name *)

(** Passing the empty string to [InstanceName] is the same as passing
    [swag.Name]: at any place of any option sequence, the two calls lead to
    the same record. *)
Theorem InstanceName_empty_is_swag_Name (os1 os2 : list call) :
  newConfig (option_of <$> (os1 ++ call_InstanceName "" :: os2))
  = newConfig (option_of <$> (os1 ++ call_InstanceName swag.Name :: os2)).
Proof.
  rewrite !newConfig_catalogue, !foldl_app. cbn [foldl]. f_equal.
  apply empty_name_or_default_foldl. right. split; reflexivity.
Qed.

(** Whatever functions the caller passes, also ones that are no option of
    the package: when the loop over them ends with the record [c'],
    [newConfig] returns a record with a non-empty instance name that has
    every other field as in [c'], and returns [c'] itself when its name is
    not empty. *)
Theorem newConfig_touches_only_InstanceName
    (fns : list ConfigFn) (c' : Config.t) :
  newConfig_loop fns newConfig_literal = Ok c' →
  ∃ c, newConfig fns = Ok c
       ∧ Config.InstanceName c ≠ ""
       ∧ c = Config.with_InstanceName (Config.InstanceName c) c'
       ∧ (Config.InstanceName c' ≠ "" → c = c').
Proof.
  intros Hloop. exists (backfill c').
  split; [by rewrite newConfig_backfill, Hloop|].
  split; [apply backfill_nonempty|].
  unfold backfill. case_decide as Hname.
  - split; [reflexivity|done].
  - split; [by destruct c'|done].
Qed.

Lemma newConfig_touches_only_InstanceName_witness :
  newConfig_loop [URL "x.json"; InstanceName "v2"] newConfig_literal
  = Ok (Config.with_InstanceName "v2"
          (Config.with_URL "x.json" newConfig_literal))
  ∧ ∃ c, newConfig [URL "x.json"; InstanceName "v2"] = Ok c
         ∧ Config.InstanceName c ≠ "".
Proof.
  split; [reflexivity|].
  destruct (newConfig_touches_only_InstanceName
              [URL "x.json"; InstanceName "v2"] _ eq_refl)
    as (c & Hc & Hname & _).
  exists c. split; [exact Hc|exact Hname].
Defined.

(** ** Panics *)

(** A function that panics on the record its predecessors left aborts the
    construction: [newConfig] returns no record but that panic, whatever
    functions follow in the sequence. *)
Theorem panicking_function_aborts_newConfig
    (fns1 fns2 : list ConfigFn) (fn : ConfigFn) (c : Config.t) (p : panic) :
  newConfig_loop fns1 newConfig_literal = Ok c →
  fn c = Panic p →
  newConfig (fns1 ++ fn :: fns2) = Panic p.
Proof.
  intros Hloop Hfn. unfold newConfig.
  rewrite newConfig_loop_app, Hloop, bind_Ok. cbn [newConfig_loop].
  by rewrite Hfn.
Qed.

Lemma panicking_function_aborts_newConfig_witness :
  newConfig_loop [URL "x.json"] newConfig_literal
  = Ok (Config.with_URL "x.json" newConfig_literal)
  ∧ assign_UIConfig_entry (template.toJS "k") (template.toJS "v")
      (Config.with_URL "x.json" newConfig_literal)
    = Panic AssignToNilMap
  ∧ newConfig [URL "x.json";
               assign_UIConfig_entry (template.toJS "k") (template.toJS "v");
               UIConfig ∅]
    = Panic AssignToNilMap.
Proof.
  split; [reflexivity|]. split; [reflexivity|].
  exact (panicking_function_aborts_newConfig
           [URL "x.json"] [UIConfig ∅]
           (assign_UIConfig_entry (template.toJS "k") (template.toJS "v"))
           _ AssignToNilMap eq_refl eq_refl).
Defined.

(** ** The list of named URLs and the UI-config map *)

(** No option removes or replaces a named URL: the list of a construction
    starts with the list the construction from any prefix of its options
    gives, followed by the entries of the [URLs] calls that come after. *)
Theorem URLs_only_grow (os1 os2 : list call) :
  ∃ c1 c2, newConfig (option_of <$> os1) = Ok c1
           ∧ newConfig (option_of <$> (os1 ++ os2)) = Ok c2
           ∧ Config.URLs c2 = Config.URLs c1 ++ URLs_calls os2
           ∧ Config.URLs c1 `prefix_of` Config.URLs c2.
Proof.
  eexists _, _. split; [apply newConfig_catalogue|].
  split; [apply newConfig_catalogue|].
  rewrite !URLs_backfill, !URLs_foldl, URLs_calls_app.
  cbn [Config.URLs newConfig_literal app].
  split; [reflexivity|]. by eexists.
Qed.

(** The UI-config map of the record returned is nil exactly when the
    sequence holds no [UIConfig] call; a [UIConfig] call, also one with an
    empty or nil argument, leaves a map that is not nil. *)
Theorem UIConfig_nil_iff_not_invoked (os : list call) :
  ∃ c, newConfig (option_of <$> os) = Ok c
       ∧ (Config.UIConfig c = None
          ↔ not_invoked_in (call_UIConfig ∅) os = true).
Proof.
  eexists. split; [apply newConfig_catalogue|].
  pose proof (same_field_last_call (call_UIConfig ∅) os newConfig_literal
                eq_refl) as Hfield.
  apply same_field_backfill in Hfield. simpl in Hfield. rewrite Hfield.
  rewrite <- last_call_None.
  destruct (last_call (call_UIConfig ∅) os) as [a|] eqn:Hlast.
  - apply last_call_same_option in Hlast.
    destruct a; try discriminate Hlast.
    unfold backfill. split; [|done]. by case_decide.
  - done.
Qed.

(** ** Frame *)

(** An option assigns its own field and nothing else: under a call, the
    field of every other option, and [TryItOutEnabled], which has no option,
    keep the value they had. *)
Theorem option_touches_only_its_field (o a : call) (c : Config.t) :
  same_option o a = false →
  ∃ c', option_of a c = Ok c'
        ∧ same_field o c' c
        ∧ Config.TryItOutEnabled c' = Config.TryItOutEnabled c.
Proof.
  intros Hoa. exists (effect c a). split; [apply option_of_ok|].
  split; [by apply same_field_other|by destruct a].
Qed.

Lemma option_touches_only_its_field_witness :
  same_option (call_SupportedSubmitMethods []) (call_Plugins ["P"]) = false
  ∧ ∃ c', Plugins ["P"] newConfig_literal = Ok c'
          ∧ Config.SupportedSubmitMethods c'
            = Config.SupportedSubmitMethods newConfig_literal
          ∧ Config.TryItOutEnabled c'
            = Config.TryItOutEnabled newConfig_literal.
Proof.
  split; [reflexivity|].
  exact (option_touches_only_its_field
           (call_SupportedSubmitMethods []) (call_Plugins ["P"])
           newConfig_literal eq_refl).
Defined.
